(** * blaspp: device_utils.cc -- device selection and memory release shim

    A shallow embedding of [src/device_utils.cc].  The translation unit is a
    compile-time dispatch over three GPU back ends; every function body is an
    [#ifdef BLAS_HAVE_CUBLAS / #elif BLAS_HAVE_ROCBLAS / #elif BLAS_HAVE_ONEMKL
    / #else] chain.  The build flags are a record of booleans, the vendor
    runtimes are an interface the functions are parameterised by, and the
    functions are written in a state-and-exception monad whose state holds the
    vendor runtime's world, the caller's memory and the log of vendor calls
    issued so far. *)

From Stdlib Require Import ZArith Bool Lia.
From stdpp Require Import base gmap strings list.

Local Open Scope string_scope.
Local Open Scope Z_scope.

(** ** Build configuration *)

(** The three preprocessor flags the translation unit tests. *)
Record Config := {
  BLAS_HAVE_CUBLAS : bool;
  BLAS_HAVE_ROCBLAS : bool;
  BLAS_HAVE_ONEMKL : bool
}.

Inductive Backend := CudaClass | RocmClass | SyclClass | NoBackend.

(** Which branch of the [#ifdef]/[#elif] chain a configuration selects. *)
Definition backend (cfg : Config) : Backend :=
  if BLAS_HAVE_CUBLAS cfg then CudaClass
  else if BLAS_HAVE_ROCBLAS cfg then RocmClass
  else if BLAS_HAVE_ONEMKL cfg then SyclClass
  else NoBackend.

(** ** Machine integers *)

(** Two's-complement value of [v] in a signed integer of [bits] bits. *)
Definition wrap_signed (bits v : Z) : Z :=
  (v + 2 ^ (bits - 1)) mod 2 ^ bits - 2 ^ (bits - 1).

(** [int] *)
Definition int_bits : Z := 32.
Definition to_int (v : Z) : Z := wrap_signed int_bits v.
Definition int_range (v : Z) : Prop := - 2 ^ 31 <= v < 2 ^ 31.

(** [(size_t) v] *)
Definition to_size_t (v : Z) : Z := v mod 2 ^ 64.

(** ** Errors *)

(** [blas::Error( what, func )]: a message and the name of the operation. *)
Record Error := mkError { what : string; func : string }.

Inductive ErrorKind :=
  | BackendRuntimeError
  | UnsupportedBackend
  | NoBackendConfigured
  | UnknownBackend.

Definition msg_unsupported : string := "unsupported function for sycl backend".
Definition msg_not_available : string := "device BLAS not available".
Definition msg_unknown : string := "unknown accelerator/gpu".

(** The error kinds of the specification, read off the message an error
    carries: the three messages this translation unit throws itself name
    the three dispatch failures ("unsupported for this backend", "no backend
    compiled in", "unknown accelerator"); every other text is a diagnostic
    of the vendor runtime. *)
Definition kind_of_text (s : string) : ErrorKind :=
  if String.eqb s msg_unsupported then UnsupportedBackend
  else if String.eqb s msg_not_available then NoBackendConfigured
  else if String.eqb s msg_unknown then UnknownBackend
  else BackendRuntimeError.

Definition error_kind (e : Error) : ErrorKind := kind_of_text (what e).

Inductive Outcome (A : Type) :=
  | Ok (a : A)
  | Throw (e : Error).
Arguments Ok {A} a.
Arguments Throw {A} e.

(** ** External collaborators *)

(** Modelled from the spec: the [Queue] type (declared in blas/device.hh, not
    part of this translation unit) exposes an integer device identifier and a
    native execution-stream handle. *)
Record Queue := { queue_device : Z; queue_stream : Z }.

(** The CUDA and HIP runtime entry points the file calls.  An out-parameter
    is returned as [Some v] when the runtime stores [v] through it and as
    [None] when it leaves the caller's variable alone.  [current_device] is
    the runtime's process-global current-device register. *)
Record DeviceRuntime (W : Type) := {
  Success : Z;
  ErrorNoDevice : Z;
  GetErrorString : Z -> string;
  current_device : W -> Z;
  SetDevice : Z -> W -> Z * W;
  GetDevice : W -> Z * option Z * W;
  GetDeviceCount : W -> Z * option Z * W;
  Free : Z -> W -> Z * W;
  FreeHost : Z -> W -> Z * W
}.
Arguments Success {W} _.
Arguments ErrorNoDevice {W} _.
Arguments GetErrorString {W} _ _.
Arguments current_device {W} _ _.
Arguments SetDevice {W} _ _ _.
Arguments GetDevice {W} _ _.
Arguments GetDeviceCount {W} _ _.
Arguments Free {W} _ _ _.
Arguments FreeHost {W} _ _ _.

(** The SYCL entry points the file calls.  [sycl_free] returns the text of
    the exception it raises, if any. *)
Record SyclRuntime (W : Type) := {
  platform : Type;
  device : Type;
  get_platforms : W -> list platform;
  get_devices : platform -> list device;
  is_gpu : device -> bool;
  sycl_free : Z -> Z -> W -> option string * W
}.
Arguments platform {W} _.
Arguments device {W} _.
Arguments get_platforms {W} _ _.
Arguments get_devices {W} _ _.
Arguments is_gpu {W} _ _.
Arguments sycl_free {W} _ _ _ _.

(** What the translation unit takes from its headers and from the vendor
    SDKs: the width of [device_blas_int] and the three runtimes. *)
Class Externals (W : Type) := {
  dbi_bits : Z;
  cuda : DeviceRuntime W;
  hip : DeviceRuntime W;
  sycl : SyclRuntime W
}.

Inductive Api := CUDA | HIP.

(** One entry of the log of vendor calls. *)
Inductive Call :=
  | CallSetDevice (a : Api) (d : Z)
  | CallGetDevice (a : Api)
  | CallGetDeviceCount (a : Api)
  | CallFree (a : Api) (p : Z)
  | CallFreeHost (a : Api) (p : Z)
  | CallSyclFree (p s : Z)
  | CallGetPlatforms.

(** ** State *)

Record State (W : Type) := mkState {
  world : W;             (* the vendor runtime's state *)
  heap : gmap Z Z;       (* the caller's [int] variables, by address *)
  calls : list Call      (* vendor calls issued so far, oldest first *)
}.
Arguments mkState {W} _ _ _.
Arguments world {W} _.
Arguments heap {W} _.
Arguments calls {W} _.

(** A computation returns a value or throws, and updates the state. *)
Definition M (W A : Type) : Type := State W -> Outcome A * State W.

Section DeviceUtils.
Context {W : Type} `{Ext : Externals W}.

Definition runtime (a : Api) : DeviceRuntime W :=
  match a with CUDA => cuda | HIP => hip end.

(** [(device_blas_int) v] *)
Definition to_dbi (v : Z) : Z := wrap_signed dbi_bits v.

(** *** The monad *)

Definition ret {A} (a : A) : M W A := fun st => (Ok a, st).

Definition throw {A} (e : Error) : M W A := fun st => (Throw e, st).

Definition bind {A B} (m : M W A) (k : A -> M W B) : M W B := fun st =>
  match m st with
  | (Ok a, st') => k a st'
  | (Throw e, st') => (Throw e, st')
  end.

(** [*p = v] *)
Definition store (p v : Z) : M W unit := fun st =>
  (Ok tt, mkState (world st) (<[p := v]> (heap st)) (calls st)).

(** *** Vendor calls, logged *)

Definition api_SetDevice (a : Api) (d : Z) : M W Z := fun st =>
  let '(e, w) := SetDevice (runtime a) d (world st) in
  (Ok e, mkState w (heap st) (calls st ++ [CallSetDevice a d])).

(** [dev] is the value of the caller's variable before the call; the
    result pairs the error code with its value after the call. *)
Definition api_GetDevice (a : Api) (dev : Z) : M W (Z * Z) := fun st =>
  let '(e, out, w) := GetDevice (runtime a) (world st) in
  (Ok (e, default dev out), mkState w (heap st) (calls st ++ [CallGetDevice a])).

Definition api_GetDeviceCount (a : Api) (dev_count : Z) : M W (Z * Z) := fun st =>
  let '(e, out, w) := GetDeviceCount (runtime a) (world st) in
  (Ok (e, default dev_count out),
   mkState w (heap st) (calls st ++ [CallGetDeviceCount a])).

Definition api_Free (a : Api) (p : Z) : M W Z := fun st =>
  let '(e, w) := Free (runtime a) p (world st) in
  (Ok e, mkState w (heap st) (calls st ++ [CallFree a p])).

Definition api_FreeHost (a : Api) (p : Z) : M W Z := fun st =>
  let '(e, w) := FreeHost (runtime a) p (world st) in
  (Ok e, mkState w (heap st) (calls st ++ [CallFreeHost a p])).

Definition sycl_free_call (p s : Z) : M W (option string) := fun st =>
  let '(ex, w) := sycl_free sycl p s (world st) in
  (Ok ex, mkState w (heap st) (calls st ++ [CallSyclFree p s])).

Definition sycl_get_platforms : M W (list (platform sycl)) := fun st =>
  (Ok (get_platforms sycl (world st)),
   mkState (world st) (heap st) (calls st ++ [CallGetPlatforms])).

(** Modelled from the spec: the [blas_dev_call] macro (device_internal.hh,
    not part of this translation unit).  "Any backend runtime error is
    wrapped and re-raised immediately as a fatal-to-the-caller error
    carrying the originating operation name" and "the runtime's own
    diagnostic text". *)
Definition blas_dev_call (a : Api) (fn : string) (err : Z) : M W unit :=
  if err =? Success (runtime a) then ret tt
  else throw (mkError (GetErrorString (runtime a) err) fn).

(** Modelled from the spec: [blas_dev_call] on a SYCL-class build, where the
    runtime reports failure by raising an exception. *)
Definition blas_dev_call_sycl (fn : string) (ex : option string) : M W unit :=
  match ex with
  | None => ret tt
  | Some text => throw (mkError text fn)
  end.

End DeviceUtils.

Notation "x <- m ;; k" := (bind m (fun x => k))
  (at level 100, m at next level, right associativity).
Notation "m ;;; k" := (bind m (fun _ => k))
  (at level 100, right associativity).

(** ** The translation unit *)

Section Functions.
Context {W : Type} `{Ext : Externals W}.

Definition cudaSetDevice := api_SetDevice CUDA.
Definition hipSetDevice := api_SetDevice HIP.
Definition cudaGetDevice := api_GetDevice CUDA.
Definition hipGetDevice := api_GetDevice HIP.
Definition cudaGetDeviceCount := api_GetDeviceCount CUDA.
Definition hipGetDeviceCount := api_GetDeviceCount HIP.
Definition cudaFree := api_Free CUDA.
Definition hipFree := api_Free HIP.
Definition cudaFreeHost := api_FreeHost CUDA.
Definition hipHostFree := api_FreeHost HIP.
Definition cudaSuccess : Z := Success cuda.
Definition cudaErrorNoDevice : Z := ErrorNoDevice cuda.
Definition hipSuccess : Z := Success hip.
Definition hipErrorNoDevice : Z := ErrorNoDevice hip.

(** [void set_device( int device )] (deprecated) *)
Definition set_device (cfg : Config) (device : Z) : M W unit :=
  if BLAS_HAVE_CUBLAS cfg then
    e <- cudaSetDevice (to_dbi device) ;;
    blas_dev_call CUDA "set_device" e
  else if BLAS_HAVE_ROCBLAS cfg then
    e <- hipSetDevice (to_dbi device) ;;
    blas_dev_call HIP "set_device" e
  else if BLAS_HAVE_ONEMKL cfg then
    throw (mkError "unsupported function for sycl backend" "set_device")
  else
    throw (mkError "device BLAS not available" "set_device").

(** [void internal_set_device( int device )] *)
Definition internal_set_device (cfg : Config) (device : Z) : M W unit :=
  if BLAS_HAVE_CUBLAS cfg then
    e <- cudaSetDevice (to_dbi device) ;;
    blas_dev_call CUDA "internal_set_device" e
  else if BLAS_HAVE_ROCBLAS cfg then
    e <- hipSetDevice (to_dbi device) ;;
    blas_dev_call HIP "internal_set_device" e
  else if BLAS_HAVE_ONEMKL cfg then
    ret tt
  else
    throw (mkError "unknown accelerator/gpu" "internal_set_device").

(** [void get_device( int *device )] (deprecated); [device] is the address
    of the caller's variable. *)
Definition get_device (cfg : Config) (device : Z) : M W unit :=
  if BLAS_HAVE_CUBLAS cfg then
    let dev := -1 in
    r <- cudaGetDevice dev ;;
    let '(e, dev) := r in
    blas_dev_call CUDA "get_device" e ;;;
    store device (to_int dev)
  else if BLAS_HAVE_ROCBLAS cfg then
    let dev := -1 in
    r <- hipGetDevice dev ;;
    let '(e, dev) := r in
    blas_dev_call HIP "get_device" e ;;;
    store device (to_int dev)
  else if BLAS_HAVE_ONEMKL cfg then
    throw (mkError "unsupported function for sycl backend" "get_device")
  else
    throw (mkError "device BLAS not available" "get_device").

(** The nested loop of [get_device_count]:
    [dev_count += device.is_gpu()] over every device of every platform. *)
Definition count_gpus (platforms : list (platform sycl)) (dev_count : Z) : Z :=
  foldl (fun dev_count platform =>
           foldl (fun dev_count device =>
                    to_dbi (dev_count + Z.b2z (is_gpu sycl device)))
                 dev_count (get_devices sycl platform))
        dev_count platforms.

(** [device_blas_int get_device_count()] *)
Definition get_device_count (cfg : Config) : M W Z :=
  let dev_count := 0 in
  if BLAS_HAVE_CUBLAS cfg then
    r <- cudaGetDeviceCount dev_count ;;
    let '(err, dev_count) := r in
    (if negb (err =? cudaSuccess) && negb (err =? cudaErrorNoDevice)
     then blas_dev_call CUDA "get_device_count" err
     else ret tt) ;;;
    ret dev_count
  else if BLAS_HAVE_ROCBLAS cfg then
    r <- hipGetDeviceCount dev_count ;;
    let '(err, dev_count) := r in
    (if negb (err =? hipSuccess) && negb (err =? hipErrorNoDevice)
     then blas_dev_call HIP "get_device_count" err
     else ret tt) ;;;
    ret dev_count
  else if BLAS_HAVE_ONEMKL cfg then
    platforms <- sycl_get_platforms ;;
    ret (count_gpus platforms dev_count)
  else
    ret dev_count.

(** [std::vector::clear] and [std::vector::reserve] on the contents of a
    vector; reserving capacity leaves the elements as they are. *)
Definition vector_clear {A} (v : list A) : list A := [].
Definition vector_reserve {A} (n : Z) (v : list A) : list A := v.

(** The nested loop of [enumerate_devices]: [push_back] of every device
    that is a GPU, platform by platform. *)
Definition push_gpus (platforms : list (platform sycl))
    (devices : list (device sycl)) : list (device sycl) :=
  foldl (fun devices platform =>
           foldl (fun (devices : list (device sycl)) idevice =>
                    if is_gpu sycl idevice then (devices ++ [idevice])%list
                    else devices)
                 devices (get_devices sycl platform))
        devices platforms.

(** [void enumerate_devices( std::vector<sycl::device> &devices )]; compiled
    only under [#ifdef BLAS_HAVE_ONEMKL].  The vector is passed in and the
    vector after the call is returned. *)
Definition enumerate_devices (cfg : Config) (devices : list (device sycl))
    : M W (list (device sycl)) :=
  dev_count <- get_device_count cfg ;;
  let devices :=
    if negb (Z.of_nat (length devices) =? to_size_t dev_count)
    then vector_reserve (to_size_t dev_count) (vector_clear devices)
    else devices in
  platforms <- sycl_get_platforms ;;
  ret (push_gpus platforms devices).

(** [void device_free( void* ptr )] (deprecated) *)
Definition device_free (cfg : Config) (ptr : Z) : M W unit :=
  if BLAS_HAVE_CUBLAS cfg then
    e <- cudaFree ptr ;;
    blas_dev_call CUDA "device_free" e
  else if BLAS_HAVE_ROCBLAS cfg then
    e <- hipFree ptr ;;
    blas_dev_call HIP "device_free" e
  else if BLAS_HAVE_ONEMKL cfg then
    throw (mkError "unsupported function for sycl backend" "device_free")
  else
    throw (mkError "device BLAS not available" "device_free").

(** [void device_free( void* ptr, blas::Queue &queue )] *)
Definition device_free_queue (cfg : Config) (ptr : Z) (queue : Queue) : M W unit :=
  if BLAS_HAVE_CUBLAS cfg then
    internal_set_device cfg (queue_device queue) ;;;
    e <- cudaFree ptr ;;
    blas_dev_call CUDA "device_free" e
  else if BLAS_HAVE_ROCBLAS cfg then
    internal_set_device cfg (queue_device queue) ;;;
    e <- hipFree ptr ;;
    blas_dev_call HIP "device_free" e
  else if BLAS_HAVE_ONEMKL cfg then
    ex <- sycl_free_call ptr (queue_stream queue) ;;
    blas_dev_call_sycl "device_free" ex
  else
    ret tt.

(** [void host_free_pinned( void* ptr )] (deprecated) *)
Definition host_free_pinned (cfg : Config) (ptr : Z) : M W unit :=
  if BLAS_HAVE_CUBLAS cfg then
    e <- cudaFreeHost ptr ;;
    blas_dev_call CUDA "host_free_pinned" e
  else if BLAS_HAVE_ROCBLAS cfg then
    e <- hipHostFree ptr ;;
    blas_dev_call HIP "host_free_pinned" e
  else if BLAS_HAVE_ONEMKL cfg then
    throw (mkError "unsupported function for sycl backend" "host_free_pinned")
  else
    throw (mkError "device BLAS not available" "host_free_pinned").

(** [void host_free_pinned( void* ptr, blas::Queue &queue )] *)
Definition host_free_pinned_queue (cfg : Config) (ptr : Z) (queue : Queue)
    : M W unit :=
  if BLAS_HAVE_CUBLAS cfg then
    e <- cudaFreeHost ptr ;;
    blas_dev_call CUDA "host_free_pinned" e
  else if BLAS_HAVE_ROCBLAS cfg then
    e <- hipHostFree ptr ;;
    blas_dev_call HIP "host_free_pinned" e
  else if BLAS_HAVE_ONEMKL cfg then
    ex <- sycl_free_call ptr (queue_stream queue) ;;
    blas_dev_call_sycl "host_free_pinned" ex
  else
    throw (mkError "device BLAS not available" "host_free_pinned").

End Functions.

(** ** Reading the build class off a configuration *)

(** The vendor API a CUDA-class or ROCm-class build calls. *)
Definition backend_api (cfg : Config) : option Api :=
  match backend cfg with
  | CudaClass => Some CUDA
  | RocmClass => Some HIP
  | SyclClass | NoBackend => None
  end.

Definition cuda_build : Config := Build_Config true false false.
Definition rocm_build : Config := Build_Config false true false.
Definition sycl_build : Config := Build_Config false false true.
Definition null_build : Config := Build_Config false false false.

(** ** A simulated vendor runtime

    A small executable instance of the external interface, on which the
    functions can be run: [ndev] devices numbered from 0, a current-device
    register, a set of live allocations, and a list of SYCL platforms whose
    devices are a name and a GPU flag. *)
Module Sim.

Record World := mkWorld {
  current : Z;
  ndev : Z;
  live : list Z;
  platforms : list (list (string * bool))
}.

Definition error_string (e : Z) : string :=
  if e =? 0 then "no error"
  else if e =? 100 then "no CUDA-capable device is detected"
  else if e =? 101 then "invalid device ordinal"
  else "invalid argument".

Definition is_live (p : Z) (w : World) : bool := existsb (Z.eqb p) (live w).

Definition release (p : Z) (w : World) : World :=
  mkWorld (current w) (ndev w)
          (List.filter (fun q => negb (q =? p)) (live w)) (platforms w).

Definition free (p : Z) (w : World) : Z * World :=
  if is_live p w then (0, release p w) else (1, w).

Definition gpu : DeviceRuntime World := {|
  Success := 0;
  ErrorNoDevice := 100;
  GetErrorString := error_string;
  current_device := current;
  SetDevice d w :=
    if (0 <=? d) && (d <? ndev w)
    then (0, mkWorld d (ndev w) (live w) (platforms w))
    else (101, w);
  GetDevice w := (0, Some (current w), w);
  GetDeviceCount w :=
    if ndev w <=? 0 then (100, None, w) else (0, Some (ndev w), w);
  Free := free;
  FreeHost := free
|}.

Definition oneapi : SyclRuntime World := {|
  platform := list (string * bool);
  device := string * bool;
  get_platforms := platforms;
  get_devices := fun p => p;
  is_gpu := snd;
  sycl_free p s w :=
    if is_live p w then (None, release p w)
    else (Some "invalid USM pointer", w)
|}.

#[global] Instance externals : Externals World := {|
  dbi_bits := 32;
  cuda := gpu;
  hip := gpu;
  sycl := oneapi
|}.

(** Two devices, current device 0, allocations at 4096 and 8192, one
    SYCL platform with a CPU and a GPU. *)
Definition world0 : World :=
  mkWorld 0 2 [4096; 8192] [[("cpu0", false); ("gpu0", true)]].

Definition state0 : State World := mkState world0 ∅ [].

Definition queue0 : Queue := {| queue_device := 1; queue_stream := 7 |}.

End Sim.

(** A variant of the simulated runtime whose get-device call reports
    success without storing anything through its out-parameter. *)
Module SimSilent.

Definition gpu : DeviceRuntime Sim.World := {|
  Success := Success Sim.gpu;
  ErrorNoDevice := ErrorNoDevice Sim.gpu;
  GetErrorString := GetErrorString Sim.gpu;
  current_device := current_device Sim.gpu;
  SetDevice := SetDevice Sim.gpu;
  GetDevice w := (0, None, w);
  GetDeviceCount := GetDeviceCount Sim.gpu;
  Free := Free Sim.gpu;
  FreeHost := FreeHost Sim.gpu
|}.

Definition externals : Externals Sim.World := {|
  dbi_bits := 32;
  cuda := gpu;
  hip := gpu;
  sycl := Sim.oneapi
|}.

End SimSilent.

(** ** Statement vocabulary *)

Section Vocabulary.
Context {W : Type} `{Ext : Externals W}.

(** The call raises an error of kind [k]. *)
Definition raises {A} (k : ErrorKind) (m : M W A) (st : State W) : Prop :=
  exists e st', m st = (Throw e, st') /\ error_kind e = k.

(** The call raises an error of kind [k] and leaves the state as it was:
    no vendor call is issued and nothing is stored. *)
Definition rejects {A} (k : ErrorKind) (m : M W A) (st : State W) : Prop :=
  exists e, m st = (Throw e, st) /\ error_kind e = k.

(** The GPU devices of a list of platforms, in enumeration order. *)
Definition gpu_devices (ps : list (platform sycl)) : list (device sycl) :=
  List.filter (is_gpu sycl) (concat (map (get_devices sycl) ps)).

(** *** What the claims assume of a vendor runtime *)

(** A set-device call that reports success has written the register. *)
Definition set_device_law (rt : DeviceRuntime W) : Prop :=
  forall d w w', SetDevice rt d w = (Success rt, w') -> current_device rt w' = d.

(** Right after a successful set-device call, the get-device call succeeds
    and stores the register through its out-parameter. *)
Definition get_device_law (rt : DeviceRuntime W) : Prop :=
  forall d w w', SetDevice rt d w = (Success rt, w') ->
    exists w'', GetDevice rt w' = (Success rt, Some (current_device rt w'), w'').

(** Freeing device memory does not touch the register. *)
Definition free_frame_law (rt : DeviceRuntime W) : Prop :=
  forall p w e w', Free rt p w = (e, w') -> current_device rt w' = current_device rt w.

(** A count stored on success is not negative, and a count stored together
    with the no-device code is zero. *)
Definition count_law (rt : DeviceRuntime W) : Prop :=
  forall w e n w', GetDeviceCount rt w = (e, Some n, w') ->
    (e = Success rt -> 0 <= n) /\ (e = ErrorNoDevice rt -> n = 0).

(** The runtime's diagnostic texts are not messages of this file. *)
Definition diagnostics_law (rt : DeviceRuntime W) : Prop :=
  forall e, kind_of_text (GetErrorString rt e) = BackendRuntimeError.

End Vocabulary.

(** * Properties *)

Ltac by_config cfg :=
  destruct cfg as [[] [] []]; cbn in *; try discriminate; try congruence.

Lemma wrap_signed_id (bits v : Z) :
  - 2 ^ (bits - 1) <= v < 2 ^ (bits - 1) -> wrap_signed bits v = v.
Proof.
  intros Hv. unfold wrap_signed.
  destruct (Z_lt_le_dec (bits - 1) 0) as [Hneg | Hpos].
  - rewrite Z.pow_neg_r in Hv by assumption. lia.
  - assert (Hdouble : 2 ^ bits = 2 * 2 ^ (bits - 1)).
    { replace bits with (Z.succ (bits - 1)) at 1 by lia.
      now rewrite Z.pow_succ_r. }
    rewrite Z.mod_small; lia.
Qed.

Lemma to_int_id (v : Z) : int_range v -> to_int v = v.
Proof. intros Hv. apply wrap_signed_id. exact Hv. Qed.

Section Properties.
Context {W : Type} `{Ext : Externals W}.

Lemma to_dbi_id (v : Z) : 32 <= dbi_bits -> int_range v -> to_dbi v = v.
Proof.
  intros Hbits Hv. apply wrap_signed_id.
  assert (2 ^ 31 <= 2 ^ (dbi_bits - 1)) by (apply Z.pow_le_mono_r; lia).
  unfold int_range in Hv. lia.
Qed.

Lemma blas_dev_call_ok (a : Api) (fn : string) (e : Z) (st st' : State W) :
  blas_dev_call a fn e st = (Ok tt, st') -> e = Success (runtime a) /\ st' = st.
Proof.
  unfold blas_dev_call. destruct (Z.eqb_spec e (Success (runtime a))) as [-> | _].
  - intros [= <-]. split; reflexivity.
  - discriminate.
Qed.

Lemma blas_dev_call_success (a : Api) (fn : string) (st : State W) :
  blas_dev_call a fn (Success (runtime a)) st = (Ok tt, st).
Proof. unfold blas_dev_call. now rewrite Z.eqb_refl. Qed.

Lemma blas_dev_call_state (a : Api) (fn : string) (e : Z) (st : State W) :
  (blas_dev_call a fn e st).2 = st.
Proof. unfold blas_dev_call. now destruct (e =? Success (runtime a)). Qed.

(** *** The vendor-API branches, for either API *)

Lemma set_device_api (cfg : Config) (a : Api) (id : Z) :
  backend_api cfg = Some a ->
  set_device cfg id =
    (e <- api_SetDevice a (to_dbi id) ;; blas_dev_call a "set_device" e).
Proof. intros Ha. by_config cfg; injection Ha as <-; reflexivity. Qed.

Lemma internal_set_device_api (cfg : Config) (a : Api) (id : Z) :
  backend_api cfg = Some a ->
  internal_set_device cfg id =
    (e <- api_SetDevice a (to_dbi id) ;; blas_dev_call a "internal_set_device" e).
Proof. intros Ha. by_config cfg; injection Ha as <-; reflexivity. Qed.

Lemma get_device_api (cfg : Config) (a : Api) (device : Z) (st : State W) :
  backend_api cfg = Some a ->
  get_device cfg device st =
    (r <- api_GetDevice a (-1) ;;
     blas_dev_call a "get_device" r.1 ;;; store device (to_int r.2)) st.
Proof.
  intros Ha. by_config cfg; injection Ha as <-; unfold get_device; cbn;
    unfold bind, cudaGetDevice, hipGetDevice;
    match goal with
    | |- context [api_GetDevice ?a ?d st] =>
        destruct (api_GetDevice a d st) as [[[e dev] |] st']
    end; reflexivity.
Qed.

Lemma get_device_count_api (cfg : Config) (a : Api) (st : State W) :
  backend_api cfg = Some a ->
  get_device_count cfg st =
    (r <- api_GetDeviceCount a 0 ;;
     (if negb (r.1 =? Success (runtime a)) && negb (r.1 =? ErrorNoDevice (runtime a))
      then blas_dev_call a "get_device_count" r.1
      else ret tt) ;;;
     ret r.2) st.
Proof.
  intros Ha. by_config cfg; injection Ha as <-; unfold get_device_count; cbn;
    unfold bind, cudaGetDeviceCount, hipGetDeviceCount;
    match goal with
    | |- context [api_GetDeviceCount ?a ?d st] =>
        destruct (api_GetDeviceCount a d st) as [[[e dev] |] st']
    end; reflexivity.
Qed.

Lemma device_free_queue_api (cfg : Config) (a : Api) (ptr : Z) (queue : Queue) :
  backend_api cfg = Some a ->
  device_free_queue cfg ptr queue =
    (internal_set_device cfg (queue_device queue) ;;;
     e <- api_Free a ptr ;; blas_dev_call a "device_free" e).
Proof. intros Ha. by_config cfg; injection Ha as <-; reflexivity. Qed.

Lemma host_free_pinned_queue_api (cfg : Config) (a : Api) (ptr : Z) (queue : Queue) :
  backend_api cfg = Some a ->
  host_free_pinned_queue cfg ptr queue =
    (e <- api_FreeHost a ptr ;; blas_dev_call a "host_free_pinned" e).
Proof. intros Ha. by_config cfg; injection Ha as <-; reflexivity. Qed.

(** ** Deprecated overloads *)

(** C4.  On a SYCL-class build each of the deprecated overloads without a
    queue -- [set_device], [get_device], [device_free( ptr )] and
    [host_free_pinned( ptr )] -- raises an error of kind
    [UnsupportedBackend] for every argument, without issuing a vendor call
    or storing anything; none of them returns normally. *)
Theorem sycl_deprecated_overloads_unsupported
    (cfg : Config) (id device ptr : Z) (st : State W) :
  backend cfg = SyclClass ->
  rejects UnsupportedBackend (set_device cfg id) st /\
  rejects UnsupportedBackend (get_device cfg device) st /\
  rejects UnsupportedBackend (device_free cfg ptr) st /\
  rejects UnsupportedBackend (host_free_pinned cfg ptr) st.
Proof.
  intros Hb. by_config cfg.
  repeat split; eexists; (split; [reflexivity | reflexivity]).
Qed.

(** C5.  On a build with no backend [get_device_count] returns 0, and
    [set_device], [get_device], [device_free( ptr )] and
    [host_free_pinned( ptr )] raise an error of kind [NoBackendConfigured]
    for every argument. *)
Theorem no_backend_count_zero_and_overloads_fail
    (cfg : Config) (id device ptr : Z) (st : State W) :
  backend cfg = NoBackend ->
  get_device_count cfg st = (Ok 0, st) /\
  rejects NoBackendConfigured (set_device cfg id) st /\
  rejects NoBackendConfigured (get_device cfg device) st /\
  rejects NoBackendConfigured (device_free cfg ptr) st /\
  rejects NoBackendConfigured (host_free_pinned cfg ptr) st.
Proof.
  intros Hb. by_config cfg.
  split; [reflexivity |].
  repeat split; eexists; (split; [reflexivity | reflexivity]).
Qed.

(** ** The current device *)

(** What a successful [set_device] has done: one set-device call, which
    reported success. *)
Lemma set_device_ok (cfg : Config) (a : Api) (id : Z) (st st1 : State W) :
  backend_api cfg = Some a ->
  set_device cfg id st = (Ok tt, st1) ->
  SetDevice (runtime a) (to_dbi id) (world st) = (Success (runtime a), world st1) /\
  heap st1 = heap st /\
  calls st1 = (calls st ++ [CallSetDevice a (to_dbi id)])%list.
Proof.
  intros Ha. rewrite (set_device_api cfg a id Ha).
  unfold bind, api_SetDevice.
  destruct (SetDevice (runtime a) (to_dbi id) (world st)) as [e w1].
  intros Hcall. apply blas_dev_call_ok in Hcall as [-> ->]. cbn. auto.
Qed.

Lemma internal_set_device_ok (cfg : Config) (a : Api) (id : Z) (st st1 : State W) :
  backend_api cfg = Some a ->
  internal_set_device cfg id st = (Ok tt, st1) ->
  SetDevice (runtime a) (to_dbi id) (world st) = (Success (runtime a), world st1) /\
  heap st1 = heap st /\
  calls st1 = (calls st ++ [CallSetDevice a (to_dbi id)])%list.
Proof.
  intros Ha. rewrite (internal_set_device_api cfg a id Ha).
  unfold bind, api_SetDevice.
  destruct (SetDevice (runtime a) (to_dbi id) (world st)) as [e w1].
  intros Hcall. apply blas_dev_call_ok in Hcall as [-> ->]. cbn. auto.
Qed.

(** C8.  On a CUDA-class or ROCm-class build, for every [int] identifier
    the runtime accepts, [set_device( id )] followed immediately by
    [get_device( &device )] returns normally and leaves [id] in the
    caller's variable.  The runtime is assumed to keep its register: a
    successful set-device call writes it, and the get-device call that
    follows succeeds and reads it. *)
Theorem set_device_get_device_roundtrip
    (cfg : Config) (a : Api) (id device : Z) (st st1 : State W) :
  backend_api cfg = Some a ->
  32 <= dbi_bits ->
  int_range id ->
  set_device_law (runtime a) ->
  get_device_law (runtime a) ->
  set_device cfg id st = (Ok tt, st1) ->
  exists st2,
    get_device cfg device st1 = (Ok tt, st2) /\ heap st2 !! device = Some id.
Proof.
  intros Ha Hbits Hid Hset Hget Hcall.
  destruct (set_device_ok cfg a id st st1 Ha Hcall) as (Hrt & _ & _).
  rewrite (to_dbi_id id Hbits Hid) in Hrt.
  destruct (Hget _ _ _ Hrt) as [w2 Hrd].
  rewrite (Hset _ _ _ Hrt) in Hrd.
  rewrite (get_device_api cfg a device st1 Ha).
  unfold bind, api_GetDevice. rewrite Hrd. cbn.
  rewrite blas_dev_call_success. unfold store. cbn.
  eexists. split; [reflexivity |]. cbn.
  rewrite (to_int_id id Hid). apply lookup_insert_eq.
Qed.

(** C9.  [get_device( &device )] writes the caller's variable only on the
    way to a normal return.  Whenever it throws, the caller's memory is as
    it was before the call; on SYCL-class and no-backend builds it always
    throws, with the whole state untouched; on CUDA-class and ROCm-class
    builds a normal return means the runtime call reported success, and
    the value stored is the one the runtime left in [dev]. *)
Theorem get_device_stores_only_on_success
    (cfg : Config) (device : Z) (st : State W) :
  (forall e st', get_device cfg device st = (Throw e, st') -> heap st' = heap st) /\
  (backend_api cfg = None -> exists e, get_device cfg device st = (Throw e, st)) /\
  (forall a st', backend_api cfg = Some a ->
     get_device cfg device st = (Ok tt, st') ->
     exists out w,
       GetDevice (runtime a) (world st) = (Success (runtime a), out, w) /\
       st' = mkState w (<[device := to_int (default (-1) out)]> (heap st))
                     (calls st ++ [CallGetDevice a])).
Proof.
  split; [| split].
  - intros e st'. destruct (backend_api cfg) as [a |] eqn:Ha.
    + rewrite (get_device_api cfg a device st Ha).
      unfold bind, api_GetDevice.
      destruct (GetDevice (runtime a) (world st)) as [[c out] w]. cbn.
      unfold blas_dev_call.
      destruct (c =? Success (runtime a)); cbn; [discriminate |].
      unfold throw. intros [= _ <-]. reflexivity.
    + by_config cfg; unfold throw; intros [= _ <-]; reflexivity.
  - intros Ha. by_config cfg; eexists; reflexivity.
  - intros a st' Ha. rewrite (get_device_api cfg a device st Ha).
    unfold bind, api_GetDevice.
    destruct (GetDevice (runtime a) (world st)) as [[c out] w]. cbn.
    unfold blas_dev_call.
    destruct (Z.eqb_spec c (Success (runtime a))) as [-> | _]; cbn;
      [| discriminate].
    unfold store. cbn. intros [= <-]. eauto.
Qed.

(** ** Freeing on a queue *)

(** C3.  [device_free( ptr, queue )] on a CUDA-class or ROCm-class build
    first issues the set-device call with the queue's device identifier
    and, once that has succeeded, the free of [ptr], and nothing else; on
    a SYCL-class build it issues exactly one call, the free of [ptr] on the
    queue's stream, and no set-device call; on a build with no backend it
    returns normally with the state untouched. *)
Theorem device_free_queue_sequence
    (cfg : Config) (ptr : Z) (queue : Queue) (st : State W) :
  32 <= dbi_bits ->
  int_range (queue_device queue) ->
  let st' := (device_free_queue cfg ptr queue st).2 in
  (forall a, backend_api cfg = Some a ->
     let set := SetDevice (runtime a) (queue_device queue) (world st) in
     if set.1 =? Success (runtime a)
     then calls st' =
            (calls st ++ [CallSetDevice a (queue_device queue); CallFree a ptr])%list
          /\ world st' = (Free (runtime a) ptr set.2).2
     else calls st' = (calls st ++ [CallSetDevice a (queue_device queue)])%list
          /\ world st' = set.2
          /\ exists e, (device_free_queue cfg ptr queue st).1 = Throw e) /\
  (backend cfg = SyclClass ->
     calls st' = (calls st ++ [CallSyclFree ptr (queue_stream queue)])%list /\
     world st' = (sycl_free sycl ptr (queue_stream queue) (world st)).2) /\
  (backend cfg = NoBackend -> device_free_queue cfg ptr queue st = (Ok tt, st)).
Proof.
  intros Hbits Hq st'. subst st'. split; [| split].
  - intros a Ha. cbv zeta.
    rewrite (device_free_queue_api cfg a ptr queue Ha).
    rewrite (internal_set_device_api cfg a _ Ha).
    rewrite (to_dbi_id _ Hbits Hq).
    unfold bind, api_SetDevice, api_Free.
    destruct (SetDevice (runtime a) (queue_device queue) (world st)) as [e w1].
    cbn. unfold blas_dev_call.
    destruct (e =? Success (runtime a)); cbn.
    + destruct (Free (runtime a) ptr w1) as [e2 w2]. cbn.
      destruct (e2 =? Success (runtime a)); cbn; rewrite <- app_assoc; auto.
    + eauto.
  - intros Hb. by_config cfg. unfold device_free_queue. cbn.
    unfold bind, sycl_free_call.
    destruct (sycl_free sycl ptr (queue_stream queue) (world st)) as [ex w1].
    cbn. destruct ex; cbn; auto.
  - intros Hb. by_config cfg. reflexivity.
Qed.

(** C10.  On a CUDA-class or ROCm-class build a [device_free( ptr, queue )]
    that returns normally has issued the set-device call and the free and
    nothing else -- no query of the previous device before, no second
    set-device call after -- so the runtime's current-device register holds
    the queue's device identifier when it returns.  The runtime is assumed
    to write the register on a successful set-device call and to leave it
    alone when freeing. *)
Theorem device_free_queue_leaves_queue_device_current
    (cfg : Config) (a : Api) (ptr : Z) (queue : Queue) (st st' : State W) :
  backend_api cfg = Some a ->
  32 <= dbi_bits ->
  int_range (queue_device queue) ->
  set_device_law (runtime a) ->
  free_frame_law (runtime a) ->
  device_free_queue cfg ptr queue st = (Ok tt, st') ->
  current_device (runtime a) (world st') = queue_device queue /\
  calls st' =
    (calls st ++ [CallSetDevice a (queue_device queue); CallFree a ptr])%list.
Proof.
  intros Ha Hbits Hq Hset Hframe.
  rewrite (device_free_queue_api cfg a ptr queue Ha).
  unfold bind at 1.
  destruct (internal_set_device cfg (queue_device queue) st)
    as [[[] | e] st1] eqn:Hsd; [| discriminate].
  destruct (internal_set_device_ok cfg a _ st st1 Ha Hsd) as (Hrt & _ & Hlog).
  rewrite (to_dbi_id _ Hbits Hq) in Hrt, Hlog.
  unfold bind, api_Free.
  destruct (Free (runtime a) ptr (world st1)) as [e2 w2] eqn:Hfree.
  intros Hcall. apply blas_dev_call_ok in Hcall as [_ ->]. cbn.
  split.
  - rewrite (Hframe _ _ _ _ Hfree). exact (Hset _ _ _ Hrt).
  - rewrite Hlog, <- app_assoc. reflexivity.
Qed.

(** *** Pinned host memory *)

(** C2 (as amended).  [host_free_pinned( ptr, queue )] issues one free
    call on a CUDA-class, ROCm-class or SYCL-class build and returns
    normally exactly when the runtime reports success; a failure of the
    runtime is raised with the runtime's diagnostic and the operation
    name.  With no backend configured it raises "device BLAS not
    available", an error of kind [NoBackendConfigured], and touches
    nothing. *)
Theorem host_free_pinned_queue_outcome
    (cfg : Config) (ptr : Z) (queue : Queue) (st : State W) :
  (forall a, backend_api cfg = Some a ->
     let r := FreeHost (runtime a) ptr (world st) in
     host_free_pinned_queue cfg ptr queue st =
       (if r.1 =? Success (runtime a) then Ok tt
        else Throw (mkError (GetErrorString (runtime a) r.1) "host_free_pinned"),
        mkState r.2 (heap st) (calls st ++ [CallFreeHost a ptr]))) /\
  (backend cfg = SyclClass ->
     let r := sycl_free sycl ptr (queue_stream queue) (world st) in
     host_free_pinned_queue cfg ptr queue st =
       (match r.1 with
        | None => Ok tt
        | Some text => Throw (mkError text "host_free_pinned")
        end,
        mkState r.2 (heap st) (calls st ++ [CallSyclFree ptr (queue_stream queue)]))) /\
  (backend cfg = NoBackend ->
     rejects NoBackendConfigured (host_free_pinned_queue cfg ptr queue) st).
Proof.
  split; [| split].
  - intros a Ha. cbv zeta.
    rewrite (host_free_pinned_queue_api cfg a ptr queue Ha).
    unfold bind, api_FreeHost.
    destruct (FreeHost (runtime a) ptr (world st)) as [e w1]. cbn.
    unfold blas_dev_call. destruct (e =? Success (runtime a)); reflexivity.
  - intros Hb. by_config cfg. unfold host_free_pinned_queue. cbn.
    unfold bind, sycl_free_call.
    destruct (sycl_free sycl ptr (queue_stream queue) (world st)) as [ex w1].
    cbn. destruct ex; reflexivity.
  - intros Hb. by_config cfg. eexists. split; reflexivity.
Qed.

(** ** The internal device-set operation *)

(** C7 (as amended).  [internal_set_device( id )] on a CUDA-class or
    ROCm-class build issues the set-device call and returns normally
    exactly when the runtime reports success, raising the runtime's
    diagnostic otherwise; on a SYCL-class build it returns normally for
    every [id] and touches nothing; and it raises an error of kind
    [UnknownBackend] if and only if no backend is configured.  The
    runtime's diagnostics are assumed to differ from this file's own
    messages. *)
Theorem internal_set_device_outcome (cfg : Config) (id : Z) (st : State W) :
  (forall a, diagnostics_law (runtime a)) ->
  (forall a, backend_api cfg = Some a ->
     let r := SetDevice (runtime a) (to_dbi id) (world st) in
     internal_set_device cfg id st =
       (if r.1 =? Success (runtime a) then Ok tt
        else Throw (mkError (GetErrorString (runtime a) r.1) "internal_set_device"),
        mkState r.2 (heap st) (calls st ++ [CallSetDevice a (to_dbi id)]))) /\
  (backend cfg = SyclClass -> internal_set_device cfg id st = (Ok tt, st)) /\
  (raises UnknownBackend (internal_set_device cfg id) st <->
   backend cfg = NoBackend).
Proof.
  intros Hdiag.
  assert (Hapi : forall a, backend_api cfg = Some a ->
     let r := SetDevice (runtime a) (to_dbi id) (world st) in
     internal_set_device cfg id st =
       (if r.1 =? Success (runtime a) then Ok tt
        else Throw (mkError (GetErrorString (runtime a) r.1) "internal_set_device"),
        mkState r.2 (heap st) (calls st ++ [CallSetDevice a (to_dbi id)]))).
  { intros a Ha. cbv zeta. rewrite (internal_set_device_api cfg a id Ha).
    unfold bind, api_SetDevice.
    destruct (SetDevice (runtime a) (to_dbi id) (world st)) as [e w1]. cbn.
    unfold blas_dev_call. destruct (e =? Success (runtime a)); reflexivity. }
  split; [exact Hapi | split].
  - intros Hb. by_config cfg. reflexivity.
  - split.
    + intros (e & st' & Hcall & Hkind).
      destruct (backend_api cfg) as [a |] eqn:Ha.
      * rewrite (Hapi a eq_refl) in Hcall. cbv zeta in Hcall.
        destruct (_ =? _) in Hcall; [discriminate |].
        injection Hcall as <- _. unfold error_kind in Hkind. cbn in Hkind.
        rewrite (Hdiag a) in Hkind. discriminate.
      * by_config cfg.
    + intros Hb. by_config cfg. do 2 eexists. split; reflexivity.
Qed.

(** ** Counting and enumerating devices *)

Lemma count_inner (l : list (device sycl)) (c : Z) :
  0 <= c ->
  c + Z.of_nat (length (List.filter (is_gpu sycl) l)) < 2 ^ (dbi_bits - 1) ->
  foldl (fun dev_count device => to_dbi (dev_count + Z.b2z (is_gpu sycl device))) c l
  = c + Z.of_nat (length (List.filter (is_gpu sycl) l)).
Proof.
  revert c. induction l as [| d l IH]; intros c Hc Hfit; cbn in *.
  - lia.
  - assert (Hstep : to_dbi (c + Z.b2z (is_gpu sycl d)) = c + Z.b2z (is_gpu sycl d)).
    { apply wrap_signed_id. destruct (is_gpu sycl d); cbn in *; lia. }
    rewrite Hstep. rewrite IH; destruct (is_gpu sycl d); cbn in *; lia.
Qed.

Lemma gpu_devices_cons (p : platform sycl) (ps : list (platform sycl)) :
  gpu_devices (p :: ps) =
  (List.filter (is_gpu sycl) (get_devices sycl p) ++ gpu_devices ps)%list.
Proof. unfold gpu_devices. cbn. apply List.filter_app. Qed.

Lemma count_gpus_total (ps : list (platform sycl)) (c : Z) :
  0 <= c ->
  c + Z.of_nat (length (gpu_devices ps)) < 2 ^ (dbi_bits - 1) ->
  count_gpus ps c = c + Z.of_nat (length (gpu_devices ps)).
Proof.
  unfold count_gpus. revert c.
  induction ps as [| p ps IH]; intros c Hc Hfit.
  - unfold gpu_devices. cbn. lia.
  - rewrite gpu_devices_cons, length_app, Nat2Z.inj_add in *.
    change (foldl ?f c (p :: ps)) with (foldl f (f c p) ps). cbv beta.
    rewrite count_inner by lia. rewrite IH by lia. lia.
Qed.

Lemma push_inner (l devices : list (device sycl)) :
  foldl (fun (devices : list (device sycl)) idevice =>
           if is_gpu sycl idevice then (devices ++ [idevice])%list else devices)
        devices l
  = (devices ++ List.filter (is_gpu sycl) l)%list.
Proof.
  revert devices. induction l as [| d l IH]; intros devices; cbn.
  - now rewrite app_nil_r.
  - rewrite IH. destruct (is_gpu sycl d); [| reflexivity].
    now rewrite <- app_assoc.
Qed.

Lemma push_gpus_app (ps : list (platform sycl)) (devices : list (device sycl)) :
  push_gpus ps devices = (devices ++ gpu_devices ps)%list.
Proof.
  unfold push_gpus. revert devices.
  induction ps as [| p ps IH]; intros devices.
  - unfold gpu_devices. cbn. now rewrite app_nil_r.
  - rewrite gpu_devices_cons.
    change (foldl ?f devices (p :: ps)) with (foldl f (f devices p) ps). cbv beta.
    rewrite push_inner, IH. now rewrite <- app_assoc.
Qed.

Lemma get_device_count_sycl (cfg : Config) (st : State W) :
  backend cfg = SyclClass ->
  get_device_count cfg st =
    (Ok (count_gpus (get_platforms sycl (world st)) 0),
     mkState (world st) (heap st) (calls st ++ [CallGetPlatforms])).
Proof. intros Hb. by_config cfg. reflexivity. Qed.

(** C6.  [get_device_count] never returns a negative value, under any of
    the four configurations: with no backend it returns 0 and issues no
    call; on a SYCL-class build it returns the number of GPU devices; on a
    CUDA-class or ROCm-class build it returns the count the runtime left in
    [dev_count] when the runtime reports success, returns 0 normally when
    the runtime reports its no-device code, and raises the runtime's
    diagnostic for every other code.  The runtime is assumed to store only
    non-negative counts, and zero or nothing along with the no-device code;
    the number of GPU devices is assumed to fit [device_blas_int]. *)
Theorem get_device_count_nonnegative (cfg : Config) (st : State W) :
  (forall a, count_law (runtime a)) ->
  let gpus := gpu_devices (get_platforms sycl (world st)) in
  Z.of_nat (length gpus) < 2 ^ (dbi_bits - 1) ->
  (forall n st', get_device_count cfg st = (Ok n, st') -> 0 <= n) /\
  (backend cfg = NoBackend -> get_device_count cfg st = (Ok 0, st)) /\
  (backend cfg = SyclClass ->
     get_device_count cfg st =
       (Ok (Z.of_nat (length gpus)),
        mkState (world st) (heap st) (calls st ++ [CallGetPlatforms]))) /\
  (forall a, backend_api cfg = Some a ->
     let r := GetDeviceCount (runtime a) (world st) in
     let st' := mkState r.2 (heap st) (calls st ++ [CallGetDeviceCount a]) in
     (r.1.1 = Success (runtime a) ->
      get_device_count cfg st = (Ok (default 0 r.1.2), st')) /\
     (r.1.1 = ErrorNoDevice (runtime a) -> get_device_count cfg st = (Ok 0, st')) /\
     (r.1.1 <> Success (runtime a) -> r.1.1 <> ErrorNoDevice (runtime a) ->
      get_device_count cfg st =
        (Throw (mkError (GetErrorString (runtime a) r.1.1) "get_device_count"), st'))).
Proof.
  intros Hlaw gpus Hfit.
  assert (Hsycl : backend cfg = SyclClass ->
     get_device_count cfg st =
       (Ok (Z.of_nat (length gpus)),
        mkState (world st) (heap st) (calls st ++ [CallGetPlatforms]))).
  { intros Hb. rewrite (get_device_count_sycl cfg st Hb).
    rewrite count_gpus_total by (fold gpus; lia). reflexivity. }
  split; [| split; [| split; [exact Hsycl |]]].
  - intros n st'. destruct (backend_api cfg) as [a |] eqn:Ha.
    + rewrite (get_device_count_api cfg a st Ha).
      unfold bind, api_GetDeviceCount.
      destruct (GetDeviceCount (runtime a) (world st)) as [[e out] w] eqn:Hrt. cbn.
      unfold blas_dev_call.
      destruct (Z.eqb_spec e (Success (runtime a))) as [He | He]; cbn.
      * intros [= <- _]. destruct out as [k |]; cbn; [| lia].
        exact (proj1 (Hlaw a _ _ _ _ Hrt) He).
      * destruct (Z.eqb_spec e (ErrorNoDevice (runtime a))) as [Hn | Hn]; cbn;
          [| discriminate].
        intros [= <- _]. destruct out as [k |]; cbn; [| lia].
        rewrite (proj2 (Hlaw a _ _ _ _ Hrt) Hn). lia.
    + destruct (backend cfg) eqn:Hb;
        try (unfold backend_api in Ha; rewrite Hb in Ha; discriminate).
      * rewrite (Hsycl eq_refl). intros [= <- _]. lia.
      * by_config cfg. unfold ret. intros [= <- _]. lia.
  - intros Hb. by_config cfg. reflexivity.
  - intros a Ha. cbv zeta. rewrite (get_device_count_api cfg a st Ha).
    unfold bind, api_GetDeviceCount.
    destruct (GetDeviceCount (runtime a) (world st)) as [[e out] w] eqn:Hrt. cbn.
    unfold blas_dev_call. split; [| split].
    + intros ->. rewrite Z.eqb_refl. reflexivity.
    + intros Hn.
      assert (Hzero : default 0 out = 0).
      { destruct out as [k |]; [| reflexivity]. cbn.
        exact (proj2 (Hlaw a _ _ _ _ Hrt) Hn). }
      rewrite Hzero.
      destruct (Z.eqb_spec e (ErrorNoDevice (runtime a))) as [_ | Hne]; [| contradiction].
      destruct (e =? Success (runtime a)); reflexivity.
    + intros He Hn.
      destruct (Z.eqb_spec e (Success (runtime a))) as [| _]; [contradiction |].
      destruct (Z.eqb_spec e (ErrorNoDevice (runtime a))) as [| _]; [contradiction |].
      reflexivity.
Qed.

(** What [enumerate_devices] returns on a SYCL-class build: the GPU devices
    are appended to a vector that has been emptied only if its size was not
    the device count. *)
Lemma enumerate_devices_sycl (cfg : Config) (devices : list (device sycl))
    (st : State W) :
  backend cfg = SyclClass ->
  let gpus := gpu_devices (get_platforms sycl (world st)) in
  Z.of_nat (length gpus) < 2 ^ (dbi_bits - 1) ->
  enumerate_devices cfg devices st =
    (Ok ((if Z.of_nat (length devices) =? to_size_t (Z.of_nat (length gpus))
          then devices else []) ++ gpus)%list,
     mkState (world st) (heap st)
             (calls st ++ [CallGetPlatforms; CallGetPlatforms])).
Proof.
  intros Hb gpus Hfit. unfold enumerate_devices, bind.
  rewrite (get_device_count_sycl cfg st Hb).
  rewrite count_gpus_total by (fold gpus; lia). fold gpus.
  rewrite Z.add_0_l. unfold sycl_get_platforms, ret. cbn.
  rewrite push_gpus_app. fold gpus. rewrite <- app_assoc. cbn.
  destruct (Z.of_nat (length devices) =? to_size_t (Z.of_nat (length gpus)));
    reflexivity.
Qed.

(** X2.  When the vector's size is not the device count, it ends up holding
    exactly the GPU devices. *)
Lemma enumerate_devices_refills (cfg : Config) (devices : list (device sycl))
    (st : State W) :
  backend cfg = SyclClass ->
  let gpus := gpu_devices (get_platforms sycl (world st)) in
  Z.of_nat (length gpus) < 2 ^ (dbi_bits - 1) ->
  Z.of_nat (length devices) <> to_size_t (Z.of_nat (length gpus)) ->
  exists st',
    enumerate_devices cfg devices st = (Ok gpus, st') /\
    get_device_count cfg st = (Ok (Z.of_nat (length gpus)),
                               mkState (world st) (heap st)
                                       (calls st ++ [CallGetPlatforms])) /\
    Forall (fun d => is_gpu sycl d = true) gpus.
Proof.
  intros Hb gpus Hfit Hsize. eexists. split; [| split].
  - rewrite (enumerate_devices_sycl cfg devices st Hb Hfit). fold gpus.
    destruct (Z.eqb_spec (Z.of_nat (length devices))
                         (to_size_t (Z.of_nat (length gpus)))); [contradiction |].
    reflexivity.
  - rewrite (get_device_count_sycl cfg st Hb).
    rewrite count_gpus_total by (fold gpus; lia). reflexivity.
  - apply List.Forall_forall. intros d Hd. unfold gpus, gpu_devices in Hd.
    apply List.filter_In in Hd. tauto.
Qed.

(** X3.  When the vector's size is already the device count, its old elements
    stay and the GPU devices come after them. *)
Lemma enumerate_devices_appends (cfg : Config) (devices : list (device sycl))
    (st : State W) :
  backend cfg = SyclClass ->
  let gpus := gpu_devices (get_platforms sycl (world st)) in
  Z.of_nat (length gpus) < 2 ^ (dbi_bits - 1) ->
  Z.of_nat (length devices) = to_size_t (Z.of_nat (length gpus)) ->
  exists st',
    enumerate_devices cfg devices st = (Ok (devices ++ gpus)%list, st').
Proof.
  intros Hb gpus Hfit Hsize. eexists.
  rewrite (enumerate_devices_sycl cfg devices st Hb Hfit). fold gpus.
  rewrite Hsize, Z.eqb_refl. reflexivity.
Qed.

End Properties.

(** ** The simulated runtime keeps the laws *)

Lemma sim_set_device_law (a : Api) : set_device_law (W := Sim.World) (runtime a).
Proof.
  destruct a; intros d w w'; cbn;
    destruct ((0 <=? d) && (d <? Sim.ndev w)); intros [= <-]; reflexivity.
Qed.

Lemma sim_get_device_law (a : Api) : get_device_law (W := Sim.World) (runtime a).
Proof. destruct a; intros d w w' _; eexists; reflexivity. Qed.

Lemma sim_free_frame_law (a : Api) : free_frame_law (W := Sim.World) (runtime a).
Proof.
  destruct a; intros p w e w'; cbn; unfold Sim.free;
    destruct (Sim.is_live p w); intros [= _ <-]; reflexivity.
Qed.

Lemma sim_count_law (a : Api) : count_law (W := Sim.World) (runtime a).
Proof.
  destruct a; intros w e n w'; cbn;
    destruct (Z.leb_spec (Sim.ndev w) 0); intros [= <- <- _];
    (split; [lia | discriminate]).
Qed.

Lemma sim_diagnostics_law (a : Api) : diagnostics_law (W := Sim.World) (runtime a).
Proof.
  destruct a; intros e; cbn; unfold Sim.error_string;
    destruct (e =? 0); try reflexivity;
    destruct (e =? 100); try reflexivity;
    destruct (e =? 101); reflexivity.
Qed.

(** ** The functions on the simulated runtime *)

(** C1.  [enumerate_devices] on a SYCL-class build with one GPU among the
    devices, so that [get_device_count] is 1: a vector that comes in empty
    goes out holding the GPU, but a vector that comes in with one element
    is not cleared, because its size is already the device count, and goes
    out with two elements, the old one first -- whether or not the old one
    is a GPU. *)
Theorem enumerate_devices_keeps_vector_of_matching_size :
  let cpu0 : device sycl := ("cpu0", false) in
  let gpu0 : device sycl := ("gpu0", true) in
  backend sycl_build = SyclClass /\
  (get_device_count sycl_build Sim.state0).1 = Ok 1 /\
  (enumerate_devices sycl_build [] Sim.state0).1 = Ok [gpu0] /\
  (enumerate_devices sycl_build [cpu0] Sim.state0).1 = Ok [cpu0; gpu0] /\
  (enumerate_devices sycl_build [gpu0] Sim.state0).1 = Ok [gpu0; gpu0].
Proof. repeat split; reflexivity. Qed.

(** C2, as stated, fails: with no backend configured the error raised is of
    kind [NoBackendConfigured], not [UnsupportedBackend]; and on a configured
    backend a pointer the runtime rejects makes the call throw. *)
Lemma host_free_pinned_queue_not_as_stated :
  backend null_build = NoBackend /\
  rejects NoBackendConfigured
    (host_free_pinned_queue null_build 4096 Sim.queue0) Sim.state0 /\
  ~ raises UnsupportedBackend
      (host_free_pinned_queue null_build 4096 Sim.queue0) Sim.state0 /\
  backend cuda_build = CudaClass /\
  (host_free_pinned_queue cuda_build 12345 Sim.queue0 Sim.state0).1 =
    Throw (mkError "invalid argument" "host_free_pinned").
Proof.
  split; [reflexivity |]. split; [| split; [| split; reflexivity]].
  - eexists. split; reflexivity.
  - intros (e & st' & Hcall & Hkind). vm_compute in Hcall.
    injection Hcall as <- _. discriminate.
Qed.

(** C7, as stated, fails: on a CUDA-class build an identifier the runtime
    rejects makes [internal_set_device] throw. *)
Lemma internal_set_device_not_as_stated :
  backend cuda_build = CudaClass /\
  (internal_set_device cuda_build 5 Sim.state0).1 =
    Throw (mkError "invalid device ordinal" "internal_set_device").
Proof. split; reflexivity. Qed.

(** ** The theorems at concrete inputs *)

Lemma sim_dbi_wide : 32 <= dbi_bits (W := Sim.World).
Proof. cbn. lia. Qed.

Lemma int_range_small (v : Z) : (v =? 0) || (v =? 1) = true -> int_range v.
Proof. unfold int_range. lia. Qed.

Lemma sycl_deprecated_overloads_unsupported_witness :
  backend sycl_build = SyclClass /\
  rejects UnsupportedBackend (set_device sycl_build 1) Sim.state0 /\
  rejects UnsupportedBackend (get_device sycl_build 16) Sim.state0 /\
  rejects UnsupportedBackend (device_free sycl_build 4096) Sim.state0 /\
  rejects UnsupportedBackend (host_free_pinned sycl_build 4096) Sim.state0.
Proof.
  split; [reflexivity |].
  apply (sycl_deprecated_overloads_unsupported sycl_build 1 16 4096 Sim.state0).
  reflexivity.
Defined.

Lemma no_backend_count_zero_and_overloads_fail_witness :
  backend null_build = NoBackend /\
  get_device_count null_build Sim.state0 = (Ok 0, Sim.state0) /\
  rejects NoBackendConfigured (set_device null_build 1) Sim.state0 /\
  rejects NoBackendConfigured (get_device null_build 16) Sim.state0 /\
  rejects NoBackendConfigured (device_free null_build 4096) Sim.state0 /\
  rejects NoBackendConfigured (host_free_pinned null_build 4096) Sim.state0.
Proof.
  split; [reflexivity |].
  apply (no_backend_count_zero_and_overloads_fail null_build 1 16 4096 Sim.state0).
  reflexivity.
Defined.

Lemma set_device_get_device_roundtrip_witness :
  set_device cuda_build 1 Sim.state0
    = (Ok tt, (set_device cuda_build 1 Sim.state0).2) /\
  exists st2,
    get_device cuda_build 16 (set_device cuda_build 1 Sim.state0).2 = (Ok tt, st2) /\
    heap st2 !! 16 = Some 1.
Proof.
  split; [reflexivity |].
  apply (set_device_get_device_roundtrip cuda_build CUDA 1 16 Sim.state0).
  - reflexivity.
  - exact sim_dbi_wide.
  - apply int_range_small. reflexivity.
  - exact (sim_set_device_law CUDA).
  - exact (sim_get_device_law CUDA).
  - reflexivity.
Defined.

Lemma get_device_stores_only_on_success_witness :
  heap (get_device sycl_build 16 Sim.state0).2 = heap Sim.state0 /\
  (exists e, get_device null_build 16 Sim.state0 = (Throw e, Sim.state0)) /\
  exists out w,
    GetDevice (runtime HIP) (world Sim.state0) = (Success (runtime HIP), out, w) /\
    (get_device rocm_build 16 Sim.state0).2 =
      mkState w (<[16 := to_int (default (-1) out)]> (heap Sim.state0))
              (calls Sim.state0 ++ [CallGetDevice HIP]).
Proof.
  split; [| split].
  - eapply (proj1 (get_device_stores_only_on_success sycl_build 16 Sim.state0)).
    reflexivity.
  - apply (proj1 (proj2 (get_device_stores_only_on_success null_build 16 Sim.state0))).
    reflexivity.
  - apply (proj2 (proj2 (get_device_stores_only_on_success rocm_build 16 Sim.state0))).
    + reflexivity.
    + reflexivity.
Defined.

Lemma device_free_queue_sequence_witness :
  calls (device_free_queue cuda_build 4096 Sim.queue0 Sim.state0).2 =
    [CallSetDevice CUDA 1; CallFree CUDA 4096] /\
  calls (device_free_queue sycl_build 4096 Sim.queue0 Sim.state0).2 =
    [CallSyclFree 4096 7] /\
  device_free_queue null_build 4096 Sim.queue0 Sim.state0 = (Ok tt, Sim.state0).
Proof.
  assert (Hq : int_range (queue_device Sim.queue0))
    by (apply int_range_small; reflexivity).
  split; [| split].
  - exact (proj1 (proj1 (device_free_queue_sequence cuda_build 4096 Sim.queue0
                           Sim.state0 sim_dbi_wide Hq) CUDA eq_refl)).
  - exact (proj1 (proj1 (proj2 (device_free_queue_sequence sycl_build 4096 Sim.queue0
                                  Sim.state0 sim_dbi_wide Hq)) eq_refl)).
  - exact (proj2 (proj2 (device_free_queue_sequence null_build 4096 Sim.queue0
                           Sim.state0 sim_dbi_wide Hq)) eq_refl).
Defined.

Lemma device_free_queue_leaves_queue_device_current_witness :
  current_device (runtime CUDA) (world Sim.state0) = 0 /\
  current_device (runtime CUDA)
    (world (device_free_queue cuda_build 4096 Sim.queue0 Sim.state0).2) = 1 /\
  calls (device_free_queue cuda_build 4096 Sim.queue0 Sim.state0).2 =
    (calls Sim.state0 ++ [CallSetDevice CUDA 1; CallFree CUDA 4096])%list.
Proof.
  split; [reflexivity |].
  apply (device_free_queue_leaves_queue_device_current
           cuda_build CUDA 4096 Sim.queue0 Sim.state0).
  - reflexivity.
  - exact sim_dbi_wide.
  - apply int_range_small. reflexivity.
  - exact (sim_set_device_law CUDA).
  - exact (sim_free_frame_law CUDA).
  - reflexivity.
Defined.

Lemma host_free_pinned_queue_outcome_witness :
  (host_free_pinned_queue cuda_build 4096 Sim.queue0 Sim.state0).1 = Ok tt /\
  (host_free_pinned_queue sycl_build 1 Sim.queue0 Sim.state0).1 =
    Throw (mkError "invalid USM pointer" "host_free_pinned") /\
  rejects NoBackendConfigured
    (host_free_pinned_queue null_build 4096 Sim.queue0) Sim.state0.
Proof.
  split; [| split].
  - rewrite (proj1 (host_free_pinned_queue_outcome cuda_build 4096 Sim.queue0
                      Sim.state0) CUDA eq_refl).
    reflexivity.
  - rewrite (proj1 (proj2 (host_free_pinned_queue_outcome sycl_build 1 Sim.queue0
                             Sim.state0)) eq_refl).
    reflexivity.
  - exact (proj2 (proj2 (host_free_pinned_queue_outcome null_build 4096 Sim.queue0
                           Sim.state0)) eq_refl).
Defined.

Lemma internal_set_device_outcome_witness :
  (internal_set_device cuda_build 1 Sim.state0).1 = Ok tt /\
  internal_set_device sycl_build 1 Sim.state0 = (Ok tt, Sim.state0) /\
  raises UnknownBackend (internal_set_device null_build 1) Sim.state0.
Proof.
  pose proof (internal_set_device_outcome cuda_build 1 Sim.state0 sim_diagnostics_law)
    as Hcuda.
  pose proof (internal_set_device_outcome sycl_build 1 Sim.state0 sim_diagnostics_law)
    as Hsycl.
  pose proof (internal_set_device_outcome null_build 1 Sim.state0 sim_diagnostics_law)
    as Hnull.
  split; [| split].
  - rewrite (proj1 Hcuda CUDA eq_refl). reflexivity.
  - exact (proj1 (proj2 Hsycl) eq_refl).
  - apply (proj2 (proj2 Hnull)). reflexivity.
Defined.

Lemma get_device_count_nonnegative_witness :
  get_device_count cuda_build Sim.state0
    = (Ok 2, (get_device_count cuda_build Sim.state0).2) /\
  0 <= 2 /\
  get_device_count null_build Sim.state0 = (Ok 0, Sim.state0) /\
  (get_device_count sycl_build Sim.state0).1 = Ok 1.
Proof.
  assert (Hfit : Z.of_nat (length (gpu_devices (get_platforms sycl (world Sim.state0))))
                 < 2 ^ (dbi_bits (W := Sim.World) - 1)) by reflexivity.
  split; [reflexivity | split; [| split]].
  - apply (proj1 (get_device_count_nonnegative cuda_build Sim.state0
                    sim_count_law Hfit) 2 (get_device_count cuda_build Sim.state0).2).
    reflexivity.
  - apply (proj1 (proj2 (get_device_count_nonnegative null_build Sim.state0
                           sim_count_law Hfit))).
    reflexivity.
  - rewrite (proj1 (proj2 (proj2 (get_device_count_nonnegative sycl_build Sim.state0
                                    sim_count_law Hfit))) eq_refl).
    reflexivity.
Defined.

(** * Further properties of the translation unit *)


(** Runs a function of the translation unit symbolically: every vendor call
    and every test of an error code is split into its cases. *)
Ltac run_calls :=
  unfold set_device, internal_set_device, get_device, get_device_count,
    enumerate_devices, device_free, device_free_queue, host_free_pinned,
    host_free_pinned_queue; cbn;
  unfold cudaSetDevice, hipSetDevice, cudaGetDevice, hipGetDevice,
    cudaGetDeviceCount, hipGetDeviceCount, cudaFree, hipFree, cudaFreeHost,
    hipHostFree, cudaSuccess, hipSuccess, cudaErrorNoDevice, hipErrorNoDevice,
    bind, api_SetDevice, api_GetDevice, api_GetDeviceCount, api_Free,
    api_FreeHost, sycl_free_call, sycl_get_platforms, blas_dev_call,
    blas_dev_call_sycl, ret, throw, store; cbn;
  repeat match goal with
    | |- context [SetDevice ?r ?d ?w] => destruct (SetDevice r d w) as [? ?]; cbn
    | |- context [GetDevice ?r ?w] => destruct (GetDevice r w) as [[? ?] ?]; cbn
    | |- context [GetDeviceCount ?r ?w] =>
        destruct (GetDeviceCount r w) as [[? ?] ?]; cbn
    | |- context [Free ?r ?p ?w] => destruct (Free r p w) as [? ?]; cbn
    | |- context [FreeHost ?r ?p ?w] => destruct (FreeHost r p w) as [? ?]; cbn
    | |- context [sycl_free ?r ?p ?s ?w] => destruct (sycl_free r p s w) as [[?|] ?]; cbn
    | |- context [?a =? ?b] => destruct (a =? b); cbn
    end.

Section FurtherProperties.
Context {W : Type} `{Ext : Externals W}.

(** ** Caller memory *)


(** ** Errors *)

(** X7.  Every error a function of the file raises carries that function's
    name, with one exception: [device_free( ptr, queue )] can also raise an
    error that names [internal_set_device], the function it calls first. *)
Theorem errors_name_their_operation
    (cfg : Config) (id device ptr : Z) (queue : Queue) (st : State W) :
  (forall e st', set_device cfg id st = (Throw e, st') -> func e = "set_device") /\
  (forall e st', internal_set_device cfg id st = (Throw e, st') ->
     func e = "internal_set_device") /\
  (forall e st', get_device cfg device st = (Throw e, st') -> func e = "get_device") /\
  (forall e st', get_device_count cfg st = (Throw e, st') ->
     func e = "get_device_count") /\
  (forall e st', device_free cfg ptr st = (Throw e, st') -> func e = "device_free") /\
  (forall e st', host_free_pinned cfg ptr st = (Throw e, st') ->
     func e = "host_free_pinned") /\
  (forall e st', host_free_pinned_queue cfg ptr queue st = (Throw e, st') ->
     func e = "host_free_pinned") /\
  (forall e st', device_free_queue cfg ptr queue st = (Throw e, st') ->
     func e = "device_free" \/ func e = "internal_set_device").
Proof.
  repeat split; intros e st'; by_config cfg; run_calls; intros H;
    try discriminate H; injection H as <- _; cbn; auto.
Qed.

(** ** How the overloads relate *)

(** X8.  On a CUDA-class or ROCm-class build [device_free( ptr, queue )] is
    [internal_set_device( queue.device() )] followed by the deprecated
    [device_free( ptr )]: same result, same state, same error. *)
Theorem device_free_queue_is_set_then_free
    (cfg : Config) (a : Api) (ptr : Z) (queue : Queue) (st : State W) :
  backend_api cfg = Some a ->
  device_free_queue cfg ptr queue st =
    (internal_set_device cfg (queue_device queue) ;;; device_free cfg ptr) st.
Proof. intros Ha. by_config cfg; reflexivity. Qed.

(** X9.  [host_free_pinned( ptr, queue )] never uses the queue's device
    identifier: two queues with the same stream give the same result under
    every configuration, and outside a SYCL-class build the queue is
    ignored altogether, the call being the deprecated
    [host_free_pinned( ptr )]. *)
Theorem host_free_pinned_queue_ignores_device
    (cfg : Config) (ptr : Z) (queue queue' : Queue) (st : State W) :
  (queue_stream queue = queue_stream queue' ->
   host_free_pinned_queue cfg ptr queue st = host_free_pinned_queue cfg ptr queue' st) /\
  (backend cfg <> SyclClass ->
   host_free_pinned_queue cfg ptr queue st = host_free_pinned cfg ptr st).
Proof.
  split.
  - intros Hs. unfold host_free_pinned_queue. now rewrite Hs.
  - intros Hb. by_config cfg; reflexivity.
Qed.

(** X12.  [set_device] and [internal_set_device] leave the same state behind
    under every configuration; on a CUDA-class or ROCm-class build one
    returns normally exactly when the other does, and when they throw the
    errors carry the same message. *)
Theorem set_device_and_internal_set_device_agree
    (cfg : Config) (id : Z) (st : State W) :
  (set_device cfg id st).2 = (internal_set_device cfg id st).2 /\
  (forall a, backend_api cfg = Some a ->
     ((set_device cfg id st).1 = Ok tt <-> (internal_set_device cfg id st).1 = Ok tt) /\
     (forall e e', (set_device cfg id st).1 = Throw e ->
        (internal_set_device cfg id st).1 = Throw e' -> what e = what e')).
Proof.
  split; [| intros a Ha; split; [| intros e e']];
    by_config cfg; run_calls; try reflexivity; try tauto;
    try (split; discriminate);
    intros [= <-] [= <-]; reflexivity.
Qed.

(** X13.  The deprecated [device_free( ptr )] on a CUDA-class or ROCm-class
    build issues the free and nothing else: it selects no device, so the
    runtime's current-device register is what it was before the call.  The
    runtime is assumed to leave the register alone when freeing. *)
Theorem device_free_keeps_current_device
    (cfg : Config) (a : Api) (ptr : Z) (st : State W) :
  backend_api cfg = Some a ->
  free_frame_law (runtime a) ->
  let st' := (device_free cfg ptr st).2 in
  calls st' = (calls st ++ [CallFree a ptr])%list /\
  current_device (runtime a) (world st') = current_device (runtime a) (world st).
Proof.
  intros Ha Hframe st'. subst st'.
  assert (Hrun : device_free cfg ptr st =
            (e <- api_Free a ptr ;; blas_dev_call a "device_free" e) st)
    by (by_config cfg; injection Ha as <-; reflexivity).
  rewrite Hrun. unfold bind, api_Free.
  destruct (Free (runtime a) ptr (world st)) as [e w] eqn:Hfree.
  rewrite blas_dev_call_state. cbn. split; [reflexivity |].
  exact (Hframe _ _ _ _ Hfree).
Qed.

(** ** What [get_device] stores *)


(** X11.  On a CUDA-class or ROCm-class build, when the runtime's get-device
    call reports success but stores nothing, [get_device] returns normally
    and the caller's variable holds -1, the value [dev] was initialised
    with. *)
Theorem get_device_default_minus_one
    (cfg : Config) (a : Api) (device : Z) (st : State W) (w : W) :
  backend_api cfg = Some a ->
  GetDevice (runtime a) (world st) = (Success (runtime a), None, w) ->
  exists st',
    get_device cfg device st = (Ok tt, st') /\ heap st' !! device = Some (-1).
Proof.
  intros Ha Hrt. rewrite (get_device_api cfg a device st Ha).
  unfold bind, api_GetDevice. rewrite Hrt. cbn.
  rewrite blas_dev_call_success. unfold store. cbn.
  eexists. split; [reflexivity |]. cbn. apply lookup_insert_eq.
Qed.

(** ** Counting and enumerating on a SYCL-class build *)


(** X1.  On a SYCL-class build [enumerate_devices] called with an empty
    vector never throws and fills it with exactly the GPU devices, in the
    order the platforms and their devices are enumerated; the vector's size
    is then the value [get_device_count] returns.  The number of GPU devices
    is assumed to fit [device_blas_int]. *)
Theorem enumerate_devices_fresh_vector (cfg : Config) (st : State W) :
  backend cfg = SyclClass ->
  let gpus := gpu_devices (get_platforms sycl (world st)) in
  Z.of_nat (length gpus) < 2 ^ (dbi_bits - 1) ->
  enumerate_devices cfg [] st =
    (Ok gpus, mkState (world st) (heap st)
                      (calls st ++ [CallGetPlatforms; CallGetPlatforms])) /\
  (get_device_count cfg st).1 = Ok (Z.of_nat (length gpus)) /\
  Forall (fun d => is_gpu sycl d = true) gpus.
Proof.
  intros Hb gpus Hfit. split; [| split].
  - rewrite (enumerate_devices_sycl cfg [] st Hb Hfit). fold gpus.
    destruct (Z.of_nat (length []) =? to_size_t (Z.of_nat (length gpus)));
      reflexivity.
  - rewrite (get_device_count_sycl cfg st Hb).
    rewrite count_gpus_total by (fold gpus; lia). reflexivity.
  - apply List.Forall_forall. intros d Hd. unfold gpus, gpu_devices in Hd.
    apply List.filter_In in Hd. tauto.
Qed.

(** X4.  On a SYCL-class build, calling [enumerate_devices] on an empty
    vector and then again on the vector it filled does not refresh the
    vector: the second call finds the size equal to the device count, keeps
    the elements and appends, so every GPU device is listed twice.  The
    number of GPU devices is assumed to fit [device_blas_int] and
    [size_t]. *)
Theorem enumerate_devices_twice (cfg : Config) (st : State W) :
  backend cfg = SyclClass ->
  let gpus := gpu_devices (get_platforms sycl (world st)) in
  Z.of_nat (length gpus) < 2 ^ (dbi_bits - 1) ->
  Z.of_nat (length gpus) < 2 ^ 64 ->
  ((devices <- enumerate_devices cfg [] ;; enumerate_devices cfg devices) st).1 =
    Ok (gpus ++ gpus)%list.
Proof.
  intros Hb gpus Hfit Hsize. unfold bind.
  rewrite (enumerate_devices_sycl cfg [] st Hb Hfit). fold gpus.
  assert (Hfirst : ((if Z.of_nat (length (@nil (device sycl)))
                          =? to_size_t (Z.of_nat (length gpus))
                     then [] else []) ++ gpus)%list = gpus)
    by (destruct (_ =? _); reflexivity).
  rewrite Hfirst.
  rewrite (enumerate_devices_sycl cfg gpus
             (mkState (world st) (heap st)
                      (calls st ++ [CallGetPlatforms; CallGetPlatforms]))
             Hb Hfit).
  cbn. fold gpus.
  assert (Hsame : to_size_t (Z.of_nat (length gpus)) = Z.of_nat (length gpus))
    by (unfold to_size_t; apply Z.mod_small; lia).
  rewrite Hsame, Z.eqb_refl. reflexivity.
Qed.

End FurtherProperties.

(** ** The further properties at concrete inputs *)

Lemma sim_gpus_fit :
  Z.of_nat (length (gpu_devices (get_platforms sycl (world Sim.state0))))
  < 2 ^ (dbi_bits (W := Sim.World) - 1).
Proof. reflexivity. Qed.


Lemma errors_name_their_operation_witness :
  let queue := {| queue_device := 5; queue_stream := 7 |} in
  let e := mkError "invalid device ordinal" "internal_set_device" in
  (device_free_queue cuda_build 4096 queue Sim.state0).1 = Throw e /\
  (func e = "device_free" \/ func e = "internal_set_device").
Proof.
  intros queue e. split; [reflexivity |].
  pose proof (errors_name_their_operation cuda_build 1 16 4096 queue Sim.state0)
    as (_ & _ & _ & _ & _ & _ & _ & Hfree).
  eapply Hfree. reflexivity.
Defined.

Lemma device_free_queue_is_set_then_free_witness :
  backend_api rocm_build = Some HIP /\
  device_free_queue rocm_build 4096 Sim.queue0 Sim.state0 =
    (internal_set_device rocm_build (queue_device Sim.queue0) ;;;
     device_free rocm_build 4096) Sim.state0.
Proof.
  split; [reflexivity |].
  apply (device_free_queue_is_set_then_free rocm_build HIP 4096 Sim.queue0 Sim.state0).
  reflexivity.
Defined.

Lemma host_free_pinned_queue_ignores_device_witness :
  let queue' := {| queue_device := 0; queue_stream := 7 |} in
  host_free_pinned_queue sycl_build 4096 Sim.queue0 Sim.state0 =
    host_free_pinned_queue sycl_build 4096 queue' Sim.state0 /\
  host_free_pinned_queue cuda_build 4096 Sim.queue0 Sim.state0 =
    host_free_pinned cuda_build 4096 Sim.state0.
Proof.
  intros queue'. split.
  - apply (proj1 (host_free_pinned_queue_ignores_device
                    sycl_build 4096 Sim.queue0 queue' Sim.state0)).
    reflexivity.
  - apply (proj2 (host_free_pinned_queue_ignores_device
                    cuda_build 4096 Sim.queue0 queue' Sim.state0)).
    discriminate.
Defined.

Lemma set_device_and_internal_set_device_agree_witness :
  (set_device cuda_build 5 Sim.state0).1 =
    Throw (mkError "invalid device ordinal" "set_device") /\
  (internal_set_device cuda_build 5 Sim.state0).1 =
    Throw (mkError "invalid device ordinal" "internal_set_device") /\
  what (mkError "invalid device ordinal" "set_device") =
    what (mkError "invalid device ordinal" "internal_set_device") /\
  ((set_device cuda_build 1 Sim.state0).1 = Ok tt <->
   (internal_set_device cuda_build 1 Sim.state0).1 = Ok tt).
Proof.
  split; [reflexivity | split; [reflexivity | split]].
  - apply (proj2 (proj2 (set_device_and_internal_set_device_agree
                           cuda_build 5 Sim.state0) CUDA eq_refl));
      reflexivity.
  - exact (proj1 (proj2 (set_device_and_internal_set_device_agree
                           cuda_build 1 Sim.state0) CUDA eq_refl)).
Defined.

Lemma device_free_keeps_current_device_witness :
  calls (device_free cuda_build 4096 Sim.state0).2 = [CallFree CUDA 4096] /\
  current_device (runtime CUDA) (world (device_free cuda_build 4096 Sim.state0).2) =
    current_device (runtime CUDA) (world Sim.state0).
Proof.
  apply (device_free_keeps_current_device cuda_build CUDA 4096 Sim.state0).
  - reflexivity.
  - exact (sim_free_frame_law CUDA).
Defined.


Lemma get_device_default_minus_one_witness :
  exists st',
    get_device (Ext := SimSilent.externals) cuda_build 16 Sim.state0 = (Ok tt, st') /\
    heap st' !! 16 = Some (-1).
Proof.
  apply (get_device_default_minus_one (Ext := SimSilent.externals)
           cuda_build CUDA 16 Sim.state0 Sim.world0); reflexivity.
Defined.


Lemma enumerate_devices_fresh_vector_witness :
  (enumerate_devices sycl_build [] Sim.state0).1 = Ok [("gpu0", true)] /\
  (get_device_count sycl_build Sim.state0).1 = Ok 1.
Proof.
  pose proof (enumerate_devices_fresh_vector sycl_build Sim.state0 eq_refl sim_gpus_fit)
    as (Hfill & Hcount & _).
  split.
  - rewrite Hfill. reflexivity.
  - exact Hcount.
Defined.

Lemma enumerate_devices_refills_witness :
  exists st',
    enumerate_devices sycl_build [("cpu0", false); ("cpu0", false)] Sim.state0 =
      (Ok [("gpu0", true)], st').
Proof.
  destruct (enumerate_devices_refills (Ext := Sim.externals) sycl_build
              [("cpu0", false); ("cpu0", false)] Sim.state0 eq_refl sim_gpus_fit)
    as (st' & Hfill & _).
  - discriminate.
  - exists st'. exact Hfill.
Defined.

Lemma enumerate_devices_appends_witness :
  exists st',
    enumerate_devices sycl_build [("cpu0", false)] Sim.state0 =
      (Ok [("cpu0", false); ("gpu0", true)], st').
Proof.
  apply (enumerate_devices_appends (Ext := Sim.externals) sycl_build
           [("cpu0", false)] Sim.state0 eq_refl sim_gpus_fit).
  reflexivity.
Defined.

Lemma enumerate_devices_twice_witness :
  ((devices <- enumerate_devices sycl_build [] ;;
    enumerate_devices sycl_build devices) Sim.state0).1 =
    Ok [("gpu0", true); ("gpu0", true)].
Proof.
  apply (enumerate_devices_twice sycl_build Sim.state0 eq_refl sim_gpus_fit).
  reflexivity.
Defined.
